(** * Glaucoma detection service: the request pipeline of [static/app.py]

    A shallow embedding of the upload route ([index]), the prediction
    function ([model_predict]), the clean-up sweep ([cleanup_old_files])
    and the report route ([download_report]).

    Numbers.  The classifier output, the confidence and the file times are
    floating-point values in the program; here they are rationals ([Q]), so
    the arithmetic is exact and rounding is not part of the model.

    Outside world.  The image decoder, the classifier, the chart renderer,
    the PDF builder, [secure_filename] and the outcome of [os.remove] are
    not code of this file; they are variables of the sections below.  The
    upload folder is a finite map from file names to directory entries, and
    a path [uploads/<name>] is identified with [<name>].

    Left out: what is printed to the console, garbage collection, and
    failures of [os.listdir], [os.path.getmtime], [file.save] and
    [plt.savefig] taken apart from the rendering. *)

From stdpp Require Import gmap strings list fin_maps.
From Stdlib Require Import QArith Qminmax Qround Lqa.

Local Open Scope Q_scope.

(** ** Python outcomes: a value or a raised exception *)

Inductive exn : Type :=
| OSError (msg : string)
| OtherException (msg : string).

Inductive outcome (A : Type) : Type :=
| Ok (a : A)
| Raise (e : exn).
Arguments Ok {A} a.
Arguments Raise {A} e.

#[global] Instance outcome_ret : MRet outcome := fun A a => Ok a.
#[global] Instance outcome_bind : MBind outcome := fun A B f c =>
  match c with
  | Ok a => f a
  | Raise e => Raise e
  end.

(** ** The upload folder *)

Inductive entry : Type :=
| File (mtime : Q) (content : string)
| Dir (mtime : Q).

Abbreviation store := (gmap string entry).

(** [os.listdir(upload_dir)]: the names in the folder. *)
Definition listdir (st : store) : list string := (map_to_list st).*1.

(** ** Constants of the module *)

Definition IMG_SIZE : nat := 224.
Definition class_labels : list string := ["Normal"; "Glaucoma"].

(** ** Timestamps: [datetime.now().strftime(...)] *)

Record datetime : Type := mkDatetime {
  year : N; month : N; day : N;
  hour : N; minute : N; second : N;
  microsecond : N
}.

(** The last decimal digit of [n], as a character. *)
Definition digit (n : N) : string :=
  String (Ascii.ascii_of_N (48 + n mod 10)) EmptyString.

(** [%m], [%d], [%H], [%M], [%S]: two digits, zero-padded. *)
Definition zpad2 (n : N) : string := (digit (n / 10) +:+ digit n)%N.

(** [%Y]: four digits, zero-padded. *)
Definition zpad4 (n : N) : string :=
  (digit (n / 1000) +:+ digit (n / 100) +:+ digit (n / 10) +:+ digit n)%N.

(** [strftime("%Y%m%d_%H%M%S_")], the request's timestamp token. *)
Definition strftime_token (d : datetime) : string :=
  zpad4 (year d) +:+ zpad2 (month d) +:+ zpad2 (day d) +:+ "_" +:+
  zpad2 (hour d) +:+ zpad2 (minute d) +:+ zpad2 (second d) +:+ "_".

(** [strftime('%Y-%m-%d %H:%M:%S')], the analysis date of the report. *)
Definition strftime_date (d : datetime) : string :=
  zpad4 (year d) +:+ "-" +:+ zpad2 (month d) +:+ "-" +:+ zpad2 (day d) +:+ " " +:+
  zpad2 (hour d) +:+ ":" +:+ zpad2 (minute d) +:+ ":" +:+ zpad2 (second d).

(** [strftime('%Y%m%d%H%M%S')], the report identifier. *)
Definition strftime_id (d : datetime) : string :=
  zpad4 (year d) +:+ zpad2 (month d) +:+ zpad2 (day d) +:+
  zpad2 (hour d) +:+ zpad2 (minute d) +:+ zpad2 (second d).

(** ** [round(x, ndigits)]: nearest multiple of [10^-ndigits], ties to even *)

Definition round_half_even (x : Q) : Z :=
  let f := Qfloor x in
  match Qcompare (x - inject_Z f) (1 # 2) with
  | Lt => f
  | Gt => (f + 1)%Z
  | Eq => if Z.even f then f else (f + 1)%Z
  end.

Definition py_round (x : Q) (ndigits : nat) : Q :=
  let scale := inject_Z (10 ^ Z.of_nat ndigits) in
  Qred (inject_Z (round_half_even (x * scale)) / scale).

(** ** Prediction function *)

Section Prediction.

(** The decoded, resized and rescaled image ([img_array]). *)
Variable tensor : Type.
(** [image.load_img] followed by [img_to_array(...) / 255.0] and
    [expand_dims], applied to the bytes of the file. *)
Variable load_img : string -> outcome tensor.
(** [model.predict(img_array)[0][0]]. *)
Variable predict : tensor -> outcome Q.

(** Reading the file at [img_path]; a missing file or a directory makes
    the loader raise. *)
Definition read_image (st : store) (img_path : string) : outcome tensor :=
  match st !! img_path with
  | Some (File _ content) => load_img content
  | Some (Dir _) => Raise (OSError "IsADirectoryError")
  | None => Raise (OSError "FileNotFoundError")
  end.

(** The body of the [try] block. *)
Definition model_predict_try (st : store) (img_path : string)
  : outcome (string * Q * list Q) :=
  img_array ← read_image st img_path;
  pred ← predict img_array;
  let '(prediction, confidence) :=
    if Qlt_le_dec 0.5 pred
    then ("Glaucoma", pred * 100)
    else ("Normal", (1 - pred) * 100) in
  let preds := [1 - pred; pred] in
  mret (prediction, confidence, preds).

(** [model_predict(img_path, model)]: every exception of the body is
    caught and replaced by the fallback triple. *)
Definition model_predict (st : store) (img_path : string)
  : string * Q * list Q :=
  match model_predict_try st img_path with
  | Ok r => r
  | Raise _ => ("Error", 0.0, [0.5; 0.5])
  end.

End Prediction.

(** ** Clean-up sweep *)

Section Lifecycle.

(** Whether [os.remove] raises [OSError] on this name (file in use,
    permission denied). *)
Variable remove_fails : string -> bool.

(** [os.remove(filepath)]. *)
Definition os_remove (filename : string) (st : store) : outcome store :=
  if remove_fails filename then Raise (OSError "PermissionError")
  else match st !! filename with
       | Some (File _ _) => Ok (delete filename st)
       | Some (Dir _) => Raise (OSError "IsADirectoryError")
       | None => Raise (OSError "FileNotFoundError")
       end.

(** The [for filename in os.listdir(upload_dir)] loop.  An [OSError] of
    [os.remove] is passed over; any other exception leaves the loop
    through the outer handler. *)
Fixpoint sweep (current_time : Q) (names : list string) (st : store) : store :=
  match names with
  | [] => st
  | filename :: rest =>
      match st !! filename with
      | Some (File mtime _) =>
          let file_age := current_time - mtime in
          if Qlt_le_dec 3600 file_age then
            match os_remove filename st with
            | Ok st' => sweep current_time rest st'
            | Raise (OSError _) => sweep current_time rest st
            | Raise (OtherException _) => st
            end
          else sweep current_time rest st
      | _ => sweep current_time rest st
      end
  end.

(** [cleanup_old_files()], with [time.time()] as [current_time]. *)
Definition cleanup_old_files (current_time : Q) (st : store) : store :=
  sweep current_time (listdir st) st.

End Lifecycle.

(** ** Upload route *)

Record upload : Type := mkUpload {
  up_filename : string;   (* [file.filename] *)
  up_data : string        (* the bytes written by [file.save] *)
}.

Inductive request : Type :=
| GET
| POST (image : option upload).   (* [request.files.get("image")] *)

Inductive response : Type :=
| IndexPage (error : option string)
    (* [render_template("index.html", error=...)] *)
| ResultPage (prediction : string) (confidence : Q) (filename : string)
    (* [render_template("result.html", result=...)] *)
| ResultErrorPage (error : string)
    (* [render_template("result.html", error=...)] *)
| SendFile (data : string) (download_name mimetype : string).
    (* [send_file(..., as_attachment=True, ...)] *)

Section Upload.

Variable tensor : Type.
Variable load_img : string -> outcome tensor.
Variable predict : tensor -> outcome Q.
Variable remove_fails : string -> bool.
(** [werkzeug.utils.secure_filename]. *)
Variable secure_filename : string -> string.
(** The matplotlib calls from [plt.ioff()] to [plt.savefig]: the PNG
    bytes of the bar chart of the given labels and heights. *)
Variable render_chart : list string -> list Q -> outcome string.

(** The name under which the upload is stored. *)
Definition upload_key (now : datetime) (file : upload) : string :=
  strftime_token now +:+ secure_filename (up_filename file).

(** The name under which the chart is stored. *)
Definition plot_key (now : datetime) : string :=
  "plot_" +:+ strftime_token now +:+ ".png".

(** [file.save(filepath)]. *)
Definition save (filename : string) (clock : Q) (data : string) (st : store) : store :=
  <[filename := File clock data]> st.

(** The body of the [try] block of [index]. *)
Definition index_try (now : datetime) (clock : Q) (filename : string) (st : store)
  : outcome (response * store) :=
  let '(pred_class, confidence, preds) :=
    model_predict tensor load_img predict st filename in
  png ← render_chart class_labels ((λ v, v * 100) <$> preds);
  let st' := save (plot_key now) clock png st in
  mret (ResultPage pred_class (py_round confidence 2) filename, st').

(** The handler of [index]: the upload is removed, a failure of the
    removal is ignored. *)
Definition discard_upload (filename : string) (st : store) : store :=
  match os_remove remove_fails filename st with
  | Ok st' => st'
  | Raise _ => st
  end.

(** [index()], with [datetime.now()] as [now] and [time.time()] as
    [clock].  A request without the field "image" is [POST None]; the test
    [if file:] holds for every upload whose name is not empty. *)
Definition index (now : datetime) (clock : Q) (req : request) (st : store)
  : response * store :=
  match req with
  | GET => (IndexPage None, st)
  | POST None => (IndexPage (Some "No file uploaded"), st)
  | POST (Some file) =>
      if String.eqb (up_filename file) EmptyString then
        (IndexPage (Some "No file selected"), st)
      else
        let st1 := cleanup_old_files remove_fails clock st in
        let filename := upload_key now file in
        let st2 := save filename clock (up_data file) st1 in
        match index_try now clock filename st2 with
        | Ok r => r
        | Raise _ =>
            (IndexPage (Some "Error processing image. Please try again."),
             discard_upload filename st2)
        end
  end.

End Upload.

(** ** Report route *)

(** The flowables of the report document.  Of the table styles only the
    text colours that depend on the prediction are kept. *)
Inductive flowable : Type :=
| Paragraph (text : string)
| Spacer (inches : Q)
| Table (data : list (list string)) (text_colors : list string).

(** [prediction == "Glaucoma"] for a form field that may be missing
    ([request.form.get] gives [None] then). *)
Definition is_glaucoma (prediction : option string) : bool :=
  match prediction with
  | Some s => String.eqb s "Glaucoma"
  | None => false
  end.

(** [f"{x}"] for a form field. *)
Definition py_str (x : option string) : string :=
  match x with
  | Some s => s
  | None => "None"
  end.

Definition info_data (current_time : string) : list (list string) :=
  [ ["Analysis Date:"; current_time];
    ["AI Model:"; "DenseNet121 (Deep Learning)"];
    ["Image Resolution:"; "224√ó224 pixels"];
    ["Processing Time:"; "< 5 seconds"] ].

Definition status (prediction : option string) : string :=
  if is_glaucoma prediction then "Signs of Glaucoma Detected"
  else "No Signs of Glaucoma".

Definition result_color (prediction : option string) : string :=
  if is_glaucoma prediction then "#e74c3c" else "#27ae60".

Definition confidence_color (prediction : option string) : string :=
  if is_glaucoma prediction then "#c0392b" else "#229954".

Definition risk_assessment (prediction : option string) : string :=
  if is_glaucoma prediction then "High" else "Low".

Definition results_data (prediction confidence : option string) : list (list string) :=
  [ ["Prediction:"; status prediction];
    ["Confidence Level:"; py_str confidence +:+ "%"];
    ["Risk Assessment:"; risk_assessment prediction] ].

Definition bullet : string := "‚Ä¢".

Definition important_text : string :=
  "<para fontSize='12' textColor='#e74c3c' leftIndent='20' rightIndent='20' spaceAfter='12'><b>IMPORTANT:</b> Please consult with an ophthalmologist immediately for comprehensive evaluation.</para>".

Definition good_news_text : string :=
  "<para fontSize='12' textColor='#27ae60' leftIndent='20' rightIndent='20' spaceAfter='12'><b>GOOD NEWS:</b> No signs of glaucoma detected in this analysis.</para>".

(** The bullets of the [if] branch. *)
Definition urgent_recommendations : list string :=
  [ "Schedule an urgent appointment with an eye specialist";
    "Early detection and treatment are crucial for preventing vision loss";
    "Bring this report to your ophthalmologist appointment";
    "Consider additional diagnostic tests (OCT, visual field testing)" ].

(** The bullets of the [else] branch. *)
Definition routine_recommendations : list string :=
  [ "Continue regular eye examinations as recommended by your doctor";
    "Maintain a healthy lifestyle and protect your eyes";
    "Schedule routine check-ups every 1-2 years";
    "Report any sudden vision changes to your doctor immediately" ].

Definition notice (prediction : option string) : string :=
  if is_glaucoma prediction then important_text else good_news_text.

Definition recommendations (prediction : option string) : list string :=
  if is_glaucoma prediction then urgent_recommendations
  else routine_recommendations.

Definition rec_data (prediction : option string) : list (list string) :=
  (λ text, [bullet; text]) <$> recommendations prediction.

Definition disclaimer_title : string :=
  "<para fontSize='10' textColor='#7f8c8d'><b>IMPORTANT DISCLAIMER:</b></para>".

Definition disclaimer_main : string :=
  "This AI analysis is designed for screening and educational purposes only and should not replace professional medical diagnosis. The results are based on artificial intelligence analysis of retinal images and should be interpreted by qualified healthcare professionals. Please consult with a licensed ophthalmologist or optometrist for proper medical evaluation, diagnosis, and treatment recommendations.".

Definition disclaimer_paragraph : string :=
  "<para fontSize='9' textColor='#7f8c8d' leftIndent='20' rightIndent='20' spaceAfter='10'>"
  +:+ disclaimer_main +:+ "</para>".

Definition report_info (report_id : string) : string :=
  "<para fontSize='9' textColor='#7f8c8d' leftIndent='20' rightIndent='20'><b>Report generated by:</b> DenseNet121 AI Model | <b>Report ID:</b> GLU-"
  +:+ report_id +:+ "</para>".

(** The list [story] at the point where [doc.build(story)] is called;
    [now] and [now_id] are the two readings of [datetime.now()]. *)
Definition story (now now_id : datetime) (prediction confidence : option string)
  : list flowable :=
  [ Paragraph "AI GLAUCOMA DETECTION REPORT";
    Spacer 0.2;
    Table (info_data (strftime_date now)) [];
    Spacer 0.3;
    Paragraph "ANALYSIS RESULTS";
    Table (results_data prediction confidence)
          [result_color prediction; confidence_color prediction];
    Spacer 0.3;
    Paragraph "MEDICAL RECOMMENDATIONS";
    Paragraph (notice prediction);
    Table (rec_data prediction) [];
    Spacer 0.4;
    Paragraph disclaimer_title;
    Paragraph disclaimer_paragraph;
    Paragraph (report_info (strftime_id now_id)) ].

Section Report.

(** [doc.build(story)] followed by [buffer.getvalue()]: the bytes of the
    PDF, or an exception. *)
Variable build : list flowable -> outcome string.

(** [download_report()] for the form fields [prediction] and
    [confidence]. *)
Definition download_report (now now_id : datetime)
    (prediction confidence : option string) : response :=
  match build (story now now_id prediction confidence) with
  | Ok pdf_data =>
      SendFile pdf_data "AI_Glaucoma_Detection_Report.pdf" "application/pdf"
  | Raise _ =>
      ResultErrorPage "Error generating PDF report. Please try again."
  end.

End Report.

(** ** Serving the folder *)

(** [uploaded_file(filename)]: [send_file] on the file stored under
    [filename]; the bytes that are served, or the exception raised for a
    name that is no regular file of the folder. *)
Definition uploaded_file (filename : string) (st : store) : outcome string :=
  match st !! filename with
  | Some (File _ content) => Ok content
  | Some (Dir _) => Raise (OSError "IsADirectoryError")
  | None => Raise (OSError "FileNotFoundError")
  end.

(** ** Readings of the clock *)

(** The values [datetime.now()] can return. *)
Definition valid_datetime (d : datetime) : Prop :=
  (1 <= year d <= 9999 ∧ 1 <= month d <= 12 ∧ 1 <= day d <= 31 ∧
   hour d <= 23 ∧ minute d <= 59 ∧ second d <= 59 ∧
   microsecond d <= 999999)%N.

(** Two readings that agree down to the second. *)
Definition same_second (d1 d2 : datetime) : Prop :=
  year d1 = year d2 ∧ month d1 = month d2 ∧ day d1 = day d2 ∧
  hour d1 = hour d2 ∧ minute d1 = minute d2 ∧ second d1 = second d2.

(** ** A concrete outside world, for running the routes *)

Module Demo.

(** A decoder that rejects the bytes ["corrupt"] and passes every other
    content on as the tensor. *)
Definition load_img (content : string) : outcome string :=
  if String.eqb content "corrupt"
  then Raise (OtherException "UnidentifiedImageError")
  else Ok content.

(** A classifier that raises on ["crash"], and answers 0.92, 0.5 or 0.10
    on the other images. *)
Definition predict (img : string) : outcome Q :=
  if String.eqb img "crash" then Raise (OtherException "InvalidArgumentError")
  else if String.eqb img "glaucoma" then Ok 0.92
  else if String.eqb img "tie" then Ok 0.5
  else Ok 0.10.

Definition remove_fails (filename : string) : bool :=
  String.eqb filename "locked.png".

Definition secure_filename (filename : string) : string := filename.

Definition render_chart (labels : list string) (heights : list Q) : outcome string :=
  Ok "PNG".

Definition render_chart_broken (labels : list string) (heights : list Q)
  : outcome string :=
  Raise (OtherException "RuntimeError").

Definition build (story : list flowable) : outcome string := Ok "PDF".

(** Noon on 1 January 2024, and two instants of that second. *)
Definition noon (us : N) : datetime := mkDatetime 2024 1 1 12 0 0 us.

(** A folder with a fresh file, a stale file, a stale file that cannot be
    removed and a stale directory; the clock reads 10000. *)
Definition folder : store :=
  <["fresh.png" := File 6401 "a"]>
  (<["stale.png" := File 6399 "b"]>
  (<["locked.png" := File 6000 "c"]>
  (<["old_dir" := Dir 0]> ∅))).

Definition run_index :=
  index string load_img predict remove_fails secure_filename render_chart.

Definition run_index_broken_chart :=
  index string load_img predict remove_fails secure_filename render_chart_broken.

End Demo.

(** * Properties *)

(** ** Helper lemmas *)

Example digit_7 : digit 7 = "7".
Proof. reflexivity. Qed.

Example token_noon : strftime_token (Demo.noon 0) = "20240101_120000_".
Proof. reflexivity. Qed.

Example py_round_zero : py_round 0.0 2 = 0.
Proof. reflexivity. Qed.

Example py_round_down : py_round 92.123 2 == 92.12.
Proof. reflexivity. Qed.

Example py_round_tie : py_round 0.125 2 == 0.12 ∧ py_round 0.375 2 == 0.38.
Proof. split; reflexivity. Qed.

Example demo_cleanup :
  Demo.folder !! "fresh.png" = Some (File 6401 "a") ∧
  cleanup_old_files Demo.remove_fails 10000 Demo.folder !! "fresh.png" = Some (File 6401 "a") ∧
  cleanup_old_files Demo.remove_fails 10000 Demo.folder !! "stale.png" = None ∧
  cleanup_old_files Demo.remove_fails 10000 Demo.folder !! "locked.png" = Some (File 6000 "c").
Proof. vm_compute. auto. Qed.

(** ** The prediction function *)

Section PredictionFacts.

Variable tensor : Type.
Variable load_img : string -> outcome tensor.
Variable predict : tensor -> outcome Q.

Local Abbreviation run_predict := (model_predict tensor load_img predict).
Local Abbreviation try_predict := (model_predict_try tensor load_img predict).
Local Abbreviation read := (read_image tensor load_img).

(** The [try] block on a readable image whose classification gives [p]. *)
Lemma model_predict_try_ok st img_path img p :
  read st img_path = Ok img →
  predict img = Ok p →
  try_predict st img_path =
    Ok (if Qlt_le_dec 0.5 p then "Glaucoma" else "Normal",
        if Qlt_le_dec 0.5 p then p * 100 else (1 - p) * 100,
        [1 - p; p]).
Proof.
  intros Hread Hpred. unfold model_predict_try.
  rewrite Hread. cbn. rewrite Hpred. cbn.
  destruct (Qlt_le_dec 0.5 p); reflexivity.
Qed.

(** The [try] block raises as soon as the read or the classifier does. *)
Lemma model_predict_try_read_raises st img_path e :
  read st img_path = Raise e →
  try_predict st img_path = Raise e.
Proof.
  intros Hread. unfold model_predict_try. rewrite Hread. reflexivity.
Qed.

Lemma model_predict_try_predict_raises st img_path img e :
  read st img_path = Ok img →
  predict img = Raise e →
  try_predict st img_path = Raise e.
Proof.
  intros Hread Hpred. unfold model_predict_try.
  rewrite Hread. cbn. rewrite Hpred. reflexivity.
Qed.

(** Whatever is raised in the [try] block, the fallback triple is
    returned. *)
Lemma model_predict_fallback st img_path e :
  try_predict st img_path = Raise e →
  run_predict st img_path = ("Error", 0.0, [0.5; 0.5]).
Proof. intros H. unfold model_predict. rewrite H. reflexivity. Qed.

(** C1: when the classifier answers [p] for the image, a [p] above 0.5
    gives the label "Glaucoma" with confidence [p * 100], a [p] of at most
    0.5 gives "Normal" with confidence [(1 - p) * 100], and [p = 0.5]
    itself gives "Normal". *)
Theorem model_predict_threshold st img_path img (p : Q) :
  read st img_path = Ok img →
  predict img = Ok p →
  (0.5 < p → run_predict st img_path = ("Glaucoma", p * 100, [1 - p; p])) ∧
  (p <= 0.5 → run_predict st img_path = ("Normal", (1 - p) * 100, [1 - p; p])) ∧
  (p == 0.5 → (run_predict st img_path).1.1 = "Normal").
Proof.
  intros Hread Hpred. unfold model_predict.
  rewrite (model_predict_try_ok _ _ _ _ Hread Hpred).
  destruct (Qlt_le_dec 0.5 p) as [Hgt | Hle]; repeat split; intros H;
    try reflexivity; exfalso; lra.
Qed.

(** C2, as amended: the confidence is [max p (1 - p) * 100]; for [p] in
    [[0, 1]] it lies in the closed interval from 50 to 100, and the lower
    end 50 is reached when [p] is 0.5. *)
Theorem model_predict_confidence st img_path img (p : Q) :
  read st img_path = Ok img →
  predict img = Ok p →
  0 <= p <= 1 →
  let confidence := (run_predict st img_path).1.2 in
  confidence == Qmax p (1 - p) * 100 ∧
  50 <= confidence ∧ confidence <= 100 ∧
  (p == 0.5 → confidence == 50).
Proof.
  intros Hread Hpred [H0 H1]. unfold model_predict.
  rewrite (model_predict_try_ok _ _ _ _ Hread Hpred). cbn [fst snd].
  destruct (Qlt_le_dec 0.5 p) as [Hgt | Hle].
  - rewrite (Q.max_l p (1 - p)) by lra. repeat split; try lra; intros Htie; lra.
  - rewrite (Q.max_r p (1 - p)) by lra. repeat split; try lra; intros Htie; lra.
Qed.

(** C9: when the image is read and the classifier answers [p], the
    probability pair is [[1 - p; p]], normal first and disease second; when
    the reading or the classifier raises, it is [[0.5; 0.5]]; in every case
    it has two elements and they add up to 1. *)
Theorem model_predict_preds st img_path :
  let preds := (run_predict st img_path).2 in
  (∀ img p, read st img_path = Ok img → predict img = Ok p →
            preds = [1 - p; p]) ∧
  (∀ e, read st img_path = Raise e → preds = [0.5; 0.5]) ∧
  (∀ img e, read st img_path = Ok img → predict img = Raise e →
            preds = [0.5; 0.5]) ∧
  ∃ a b, preds = [a; b] ∧ a + b == 1.
Proof.
  cbv zeta. unfold model_predict.
  destruct (read st img_path) as [img | e] eqn:Hread.
  - destruct (predict img) as [p | e] eqn:Hpred.
    + rewrite (model_predict_try_ok _ _ _ _ Hread Hpred). cbn [snd].
      split; [| split; [| split]].
      * intros img' p' [= <-] Hpred'. rewrite Hpred in Hpred'.
        by injection Hpred' as <-.
      * discriminate.
      * intros img' e [= <-] Hpred'. congruence.
      * exists (1 - p), p. split; [reflexivity | lra].
    + rewrite (model_predict_try_predict_raises _ _ _ _ Hread Hpred). cbn [snd].
      split; [| split; [| split]].
      * intros img' p' [= <-] Hpred'. congruence.
      * discriminate.
      * reflexivity.
      * exists 0.5, 0.5. split; reflexivity.
  - rewrite (model_predict_try_read_raises _ _ _ Hread). cbn [snd].
    split; [| split; [| split]].
    + discriminate.
    + reflexivity.
    + discriminate.
    + exists 0.5, 0.5. split; reflexivity.
Qed.

End PredictionFacts.

(** ** The clean-up sweep *)

Section LifecycleFacts.

Variable remove_fails : string -> bool.

Local Abbreviation cleanup := (cleanup_old_files remove_fails).

(** What the loop leaves under a name [k]: only a regular file that is
    listed, older than 3600 seconds and removable disappears. *)
Lemma sweep_lookup current_time names (st : store) k :
  sweep remove_fails current_time names st !! k =
    match st !! k with
    | Some (File mtime content) =>
        if decide (k ∈ names) then
          if Qlt_le_dec 3600 (current_time - mtime) then
            if remove_fails k then Some (File mtime content) else None
          else Some (File mtime content)
        else Some (File mtime content)
    | o => o
    end.
Proof.
  revert st. induction names as [| f rest IH]; intros st.
  - cbn [sweep]. destruct (st !! k) as [[m c | m] |]; reflexivity.
  - cbn [sweep].
    assert (Hskip : sweep remove_fails current_time rest st !! k =
              match st !! k with
              | Some (File mtime content) =>
                  if decide (k ∈ rest) then
                    if Qlt_le_dec 3600 (current_time - mtime) then
                      if remove_fails k then Some (File mtime content) else None
                    else Some (File mtime content)
                  else Some (File mtime content)
              | o => o
              end) by apply IH.
    destruct (decide (k = f)) as [-> | Hne].
    + revert Hskip.
      destruct (st !! f) as [[mf cf | mf] |] eqn:Hf; [| trivial ..].
      rewrite (decide_True (P := f ∈ f :: rest)) by left.
      destruct (Qlt_le_dec 3600 (current_time - mf)) as [Hold | Hyoung];
        [| intros ->; repeat case_decide; reflexivity].
      unfold os_remove. rewrite Hf.
      destruct (remove_fails f) eqn:Hrf.
      * intros ->. repeat case_decide; reflexivity.
      * intros _. rewrite IH, lookup_delete_eq. reflexivity.
    + assert (Hmem : ∀ (A : Type) (a b : A),
                (if decide (k ∈ f :: rest) then a else b) =
                (if decide (k ∈ rest) then a else b)).
      { intros A a b.
        destruct (decide (k ∈ f :: rest)) as [Hin | Hnin],
                 (decide (k ∈ rest)) as [Hin' | Hnin']; try reflexivity.
        - apply elem_of_cons in Hin as [Heq | Hin]; contradiction.
        - exfalso. apply Hnin. by right. }
      assert (Hgoal : sweep remove_fails current_time rest st !! k =
                match st !! k with
                | Some (File mtime content) =>
                    if decide (k ∈ f :: rest) then
                      if Qlt_le_dec 3600 (current_time - mtime) then
                        if remove_fails k then Some (File mtime content) else None
                      else Some (File mtime content)
                    else Some (File mtime content)
                | o => o
                end).
      { rewrite Hskip. destruct (st !! k) as [[m c | m] |]; try reflexivity.
        symmetry. apply Hmem. }
      destruct (st !! f) as [[mf cf | mf] |] eqn:Hf; try exact Hgoal.
      destruct (Qlt_le_dec 3600 (current_time - mf)); try exact Hgoal.
      unfold os_remove. rewrite Hf.
      destruct (remove_fails f); try exact Hgoal.
      rewrite IH, lookup_delete_ne by congruence.
      destruct (st !! k) as [[m c | m] |]; try reflexivity.
      symmetry. apply Hmem.
Qed.

(** Every name of the folder is listed. *)
Lemma listdir_elem (st : store) k : k ∈ listdir st ↔ is_Some (st !! k).
Proof.
  unfold listdir. rewrite list_elem_of_fmap. split.
  - intros [[k' e] [-> Hin]]. apply elem_of_map_to_list in Hin. eauto.
  - intros [e He]. exists (k, e). split; [reflexivity |].
    by apply elem_of_map_to_list.
Qed.

(** The sweep on a regular file of the folder. *)
Lemma cleanup_lookup_file current_time (st : store) k mtime content :
  st !! k = Some (File mtime content) →
  cleanup current_time st !! k =
    if Qlt_le_dec 3600 (current_time - mtime) then
      if remove_fails k then Some (File mtime content) else None
    else Some (File mtime content).
Proof.
  intros Hk. unfold cleanup_old_files. rewrite sweep_lookup, Hk.
  rewrite decide_True; [reflexivity |]. apply listdir_elem. eauto.
Qed.

(** The sweep leaves directories and absent names as they are. *)
Lemma cleanup_lookup_other current_time (st : store) k :
  (∀ mtime content, st !! k ≠ Some (File mtime content)) →
  cleanup current_time st !! k = st !! k.
Proof.
  intros Hk. unfold cleanup_old_files. rewrite sweep_lookup.
  destruct (st !! k) as [[m c | m] |]; try reflexivity.
  exfalso. by apply (Hk m c).
Qed.

(** C5: a file whose age is at most 3600 seconds is still there after
    the sweep; a file whose age exceeds 3600 seconds is gone when its own
    removal does not fail, whatever happens to the removal of the other
    files; a file whose removal fails stays. *)
Theorem cleanup_old_files_eviction current_time (st : store) k mtime content :
  st !! k = Some (File mtime content) →
  (current_time - mtime <= 3600 →
     cleanup current_time st !! k = Some (File mtime content)) ∧
  (3600 < current_time - mtime → remove_fails k = false →
     cleanup current_time st !! k = None) ∧
  (3600 < current_time - mtime → remove_fails k = true →
     cleanup current_time st !! k = Some (File mtime content)).
Proof.
  intros Hk. rewrite (cleanup_lookup_file _ _ _ _ _ Hk).
  destruct (Qlt_le_dec 3600 (current_time - mtime)) as [Hold | Hyoung].
  - repeat split.
    + intros Hle. exfalso. lra.
    + intros _ ->. reflexivity.
    + intros _ ->. reflexivity.
  - repeat split; intros Hold; try reflexivity; exfalso; lra.
Qed.

End LifecycleFacts.

(** ** The upload route *)

(** The timestamp token reads the clock down to the second only. *)
Lemma strftime_token_same_second d1 d2 :
  year d1 = year d2 → month d1 = month d2 → day d1 = day d2 →
  hour d1 = hour d2 → minute d1 = minute d2 → second d1 = second d2 →
  strftime_token d1 = strftime_token d2.
Proof. unfold strftime_token. by intros -> -> -> -> -> ->. Qed.

Section UploadFacts.

Variable tensor : Type.
Variable load_img : string -> outcome tensor.
Variable predict : tensor -> outcome Q.
Variable remove_fails : string -> bool.
Variable secure_filename : string -> string.
Variable render_chart : list string -> list Q -> outcome string.

Local Abbreviation run_predict := (model_predict tensor load_img predict).
Local Abbreviation try_predict := (model_predict_try tensor load_img predict).
Local Abbreviation read := (read_image tensor load_img).
Local Abbreviation cleanup := (cleanup_old_files remove_fails).
Local Abbreviation key := (upload_key secure_filename).
Local Abbreviation discard := (discard_upload remove_fails).
Local Abbreviation run_index :=
  (index tensor load_img predict remove_fails secure_filename render_chart).
Local Abbreviation run_index_try :=
  (index_try tensor load_img predict render_chart).

(** Two uploads of the same second with the same sanitized name get the
    same key. *)
Lemma upload_key_same_second d1 d2 f1 f2 :
  strftime_token d1 = strftime_token d2 →
  secure_filename (up_filename f1) = secure_filename (up_filename f2) →
  key d1 f1 = key d2 f2.
Proof. unfold upload_key. by intros -> ->. Qed.

(** The route on an upload with a file name: sweep, save, then the
    [try] block with its handler. *)
Lemma index_post now clock file (st : store) :
  up_filename file ≠ EmptyString →
  run_index now clock (POST (Some file)) st =
    let st2 := save (key now file) clock (up_data file) (cleanup clock st) in
    match run_index_try now clock (key now file) st2 with
    | Ok r => r
    | Raise _ =>
        (IndexPage (Some "Error processing image. Please try again."),
         discard (key now file) st2)
    end.
Proof.
  intros Hname. unfold index.
  destruct (String.eqb_spec (up_filename file) EmptyString) as [Heq | _];
    [contradiction | reflexivity].
Qed.

(** The image read back by the prediction is the one just saved. *)
Lemma read_saved filename clock data (st : store) :
  read (save filename clock data st) filename = load_img data.
Proof. unfold read_image, save. by rewrite lookup_insert_eq. Qed.

(** The handler removes the upload unless the removal fails. *)
Lemma discard_saved filename clock data (st : store) :
  discard filename (save filename clock data st) !! filename =
    if remove_fails filename then Some (File clock data) else None.
Proof.
  unfold discard_upload, os_remove, save. rewrite lookup_insert_eq.
  destruct (remove_fails filename).
  - by rewrite lookup_insert_eq.
  - by rewrite lookup_delete_eq.
Qed.

(** When the [try] block of the prediction raises, the route goes on with
    the fallback triple: it answers with the result page for "Error" if
    the chart renders, and with the error page if it does not. *)
Lemma index_prediction_raises now clock file (st : store) e :
  up_filename file ≠ EmptyString →
  let filename := key now file in
  let st2 := save filename clock (up_data file) (cleanup clock st) in
  try_predict st2 filename = Raise e →
  run_predict st2 filename = ("Error", 0.0, [0.5; 0.5]) ∧
  run_index now clock (POST (Some file)) st =
    match render_chart class_labels [0.5 * 100; 0.5 * 100] with
    | Ok png =>
        (ResultPage "Error" 0 filename, save (plot_key now) clock png st2)
    | Raise _ =>
        (IndexPage (Some "Error processing image. Please try again."),
         discard filename st2)
    end.
Proof.
  intros Hname filename st2 Htry.
  pose proof (model_predict_fallback _ _ _ _ _ _ Htry) as Hfall.
  split; [exact Hfall |].
  rewrite index_post by exact Hname. cbv zeta. fold filename. fold st2.
  unfold index_try. rewrite Hfall. cbn [fmap list_fmap].
  destruct (render_chart class_labels [0.5 * 100; 0.5 * 100]); reflexivity.
Qed.

(** C3: when the classifier raises on the uploaded image, the prediction
    function returns "Error", 0.0 and [[0.5; 0.5]], and the route still
    answers: with the result page for "Error" and confidence 0 when the
    chart renders, with the error page when it does not. *)
Theorem classifier_failure_fallback now clock file (st : store) img e :
  up_filename file ≠ EmptyString →
  load_img (up_data file) = Ok img →
  predict img = Raise e →
  let filename := key now file in
  let st2 := save filename clock (up_data file) (cleanup clock st) in
  run_predict st2 filename = ("Error", 0.0, [0.5; 0.5]) ∧
  run_index now clock (POST (Some file)) st =
    match render_chart class_labels [0.5 * 100; 0.5 * 100] with
    | Ok png =>
        (ResultPage "Error" 0 filename, save (plot_key now) clock png st2)
    | Raise _ =>
        (IndexPage (Some "Error processing image. Please try again."),
         discard filename st2)
    end.
Proof.
  intros Hname Hload Hpred filename st2.
  apply (index_prediction_raises now clock file st e Hname).
  apply model_predict_try_predict_raises with (img := img); [| exact Hpred].
  rewrite read_saved. exact Hload.
Qed.

(** C6, as amended: a decoding failure is handled like a classifier
    failure.  The prediction function returns "Error", 0.0 and
    [[0.5; 0.5]]; the route then answers with the result page for "Error"
    and keeps the upload when the chart renders, and answers with the
    try-again message and removes the upload only when the chart rendering
    raises. *)
Theorem decode_failure_fallback now clock file (st : store) e :
  up_filename file ≠ EmptyString →
  load_img (up_data file) = Raise e →
  let filename := key now file in
  let st2 := save filename clock (up_data file) (cleanup clock st) in
  run_predict st2 filename = ("Error", 0.0, [0.5; 0.5]) ∧
  run_index now clock (POST (Some file)) st =
    match render_chart class_labels [0.5 * 100; 0.5 * 100] with
    | Ok png =>
        (ResultPage "Error" 0 filename, save (plot_key now) clock png st2)
    | Raise _ =>
        (IndexPage (Some "Error processing image. Please try again."),
         discard filename st2)
    end.
Proof.
  intros Hname Hload filename st2.
  apply (index_prediction_raises now clock file st e Hname).
  apply model_predict_try_read_raises.
  rewrite read_saved. exact Hload.
Qed.

(** C7, as amended: a failure of the chart rendering is caught, and the
    route answers with the upload page carrying "Error processing image.
    Please try again."; the diagnosis is not returned, and the upload is
    removed unless its removal fails. *)
Theorem chart_failure_error_page now clock file (st : store) e :
  up_filename file ≠ EmptyString →
  let filename := key now file in
  let st2 := save filename clock (up_data file) (cleanup clock st) in
  render_chart class_labels ((λ v, v * 100) <$> (run_predict st2 filename).2)
    = Raise e →
  run_index now clock (POST (Some file)) st =
    (IndexPage (Some "Error processing image. Please try again."),
     discard filename st2) ∧
  discard filename st2 !! filename =
    if remove_fails filename then Some (File clock (up_data file)) else None.
Proof.
  intros Hname filename st2 Hchart. split.
  - rewrite index_post by exact Hname. cbv zeta. fold filename. fold st2.
    unfold index_try.
    destruct (run_predict st2 filename) as [[pred_class confidence] preds].
    cbn [snd] in Hchart. rewrite Hchart. reflexivity.
  - apply discard_saved.
Qed.

End UploadFacts.

(** C4: evaluation at the failing input.  Two uploads named "eye.png"
    arrive in the same second (at microseconds 100000 and 900000); both are
    stored under "20240101_120000_eye.png", both charts under
    "plot_20240101_120000_.png", and after the second request the key holds
    the bytes of the second upload, those of the first being overwritten. *)
Theorem same_second_uploads_collide :
  let first := mkUpload "eye.png" "first" in
  let second := mkUpload "eye.png" "second" in
  let st1 := (Demo.run_index (Demo.noon 100000) 10000 (POST (Some first)) ∅).2 in
  let st2 := (Demo.run_index (Demo.noon 900000) 10000.8 (POST (Some second)) st1).2 in
  upload_key Demo.secure_filename (Demo.noon 100000) first = "20240101_120000_eye.png" ∧
  upload_key Demo.secure_filename (Demo.noon 900000) second = "20240101_120000_eye.png" ∧
  plot_key (Demo.noon 100000) = plot_key (Demo.noon 900000) ∧
  st1 !! "20240101_120000_eye.png" = Some (File 10000 "first") ∧
  st2 !! "20240101_120000_eye.png" = Some (File 10000.8 "second").
Proof. vm_compute. repeat split. Qed.

(** ** The report route *)

Lemma is_glaucoma_spec prediction :
  is_glaucoma prediction = true ↔ prediction = Some "Glaucoma".
Proof.
  destruct prediction as [s |]; cbn; [| split; discriminate].
  rewrite String.eqb_eq. split; congruence.
Qed.

Lemma is_glaucoma_false prediction :
  is_glaucoma prediction = false ↔ prediction ≠ Some "Glaucoma".
Proof.
  rewrite <- is_glaucoma_spec. destruct (is_glaucoma prediction); split;
    congruence.
Qed.

(** The two bullet sets share no bullet. *)
Lemma recommendations_disjoint text :
  text ∈ urgent_recommendations → text ∉ routine_recommendations.
Proof.
  revert text. apply Forall_forall.
  repeat constructor; apply (bool_decide_unpack _); vm_compute; exact I.
Qed.

Section ReportFacts.

Variable build : list flowable -> outcome string.

(** The document is sent when it builds, and an error page is returned
    when it does not. *)
Lemma download_report_response now now_id prediction confidence :
  download_report build now now_id prediction confidence =
    match build (story now now_id prediction confidence) with
    | Ok pdf_data =>
        SendFile pdf_data "AI_Glaucoma_Detection_Report.pdf" "application/pdf"
    | Raise _ =>
        ResultErrorPage "Error generating PDF report. Please try again."
    end.
Proof. reflexivity. Qed.

End ReportFacts.

(** C8: the risk tier of the results table is "High" exactly when the
    prediction is "Glaucoma" and "Low" otherwise; the recommendations table
    holds the urgent-consultation bullets exactly when the prediction is
    "Glaucoma" and the routine-checkup bullets otherwise; the two bullet
    sets share no bullet. *)
Theorem report_risk_and_recommendations now now_id prediction confidence :
  story now now_id prediction confidence !! 5%nat =
    Some (Table [ ["Prediction:"; status prediction];
                  ["Confidence Level:"; py_str confidence +:+ "%"];
                  ["Risk Assessment:"; risk_assessment prediction] ]
                [result_color prediction; confidence_color prediction]) ∧
  story now now_id prediction confidence !! 9%nat =
    Some (Table ((λ text, [bullet; text]) <$> recommendations prediction) []) ∧
  (risk_assessment prediction = "High" ↔ prediction = Some "Glaucoma") ∧
  (risk_assessment prediction = "Low" ↔ prediction ≠ Some "Glaucoma") ∧
  (recommendations prediction = urgent_recommendations
     ↔ prediction = Some "Glaucoma") ∧
  (recommendations prediction = routine_recommendations
     ↔ prediction ≠ Some "Glaucoma") ∧
  (∀ text, text ∈ urgent_recommendations → text ∉ routine_recommendations).
Proof.
  split; [reflexivity |]. split; [reflexivity |].
  pose proof (is_glaucoma_spec prediction) as Hyes.
  pose proof (is_glaucoma_false prediction) as Hno.
  unfold risk_assessment, recommendations.
  destruct (is_glaucoma prediction).
  - assert (Hp : prediction = Some "Glaucoma") by (by apply Hyes).
    repeat split; intros; try done; by apply recommendations_disjoint.
  - assert (Hp : prediction ≠ Some "Glaucoma") by (by apply Hno).
    repeat split; intros; try done; by apply recommendations_disjoint.
Qed.

(** C10: for every prediction field other than the string "Glaucoma",
    a missing field included, the report is the healthy one: its results
    table reads "No Signs of Glaucoma" with risk "Low", its notice is the
    good-news one and its recommendations table holds the routine-checkup
    bullets. *)
Theorem report_healthy_branch now now_id prediction confidence :
  prediction ≠ Some "Glaucoma" →
  story now now_id prediction confidence !! 5%nat =
    Some (Table [ ["Prediction:"; "No Signs of Glaucoma"];
                  ["Confidence Level:"; py_str confidence +:+ "%"];
                  ["Risk Assessment:"; "Low"] ]
                ["#27ae60"; "#229954"]) ∧
  story now now_id prediction confidence !! 8%nat = Some (Paragraph good_news_text) ∧
  story now now_id prediction confidence !! 9%nat =
    Some (Table ((λ text, [bullet; text]) <$> routine_recommendations) []).
Proof.
  intros Hne. apply is_glaucoma_false in Hne.
  unfold story, results_data, rec_data, status, risk_assessment, result_color,
    confidence_color, notice, recommendations.
  rewrite Hne. repeat split.
Qed.

(** ** The theorems at concrete inputs *)

(** C1 at work: 0.92 gives "Glaucoma" with confidence 92, and 0.5 gives
    "Normal" with confidence 50. *)
Lemma model_predict_threshold_witness :
  let st : store := <["g.png" := File 0 "glaucoma"]> (<["t.png" := File 0 "tie"]> ∅) in
  model_predict string Demo.load_img Demo.predict st "g.png"
    = ("Glaucoma", 0.92 * 100, [1 - 0.92; 0.92]) ∧
  model_predict string Demo.load_img Demo.predict st "t.png"
    = ("Normal", (1 - 0.5) * 100, [1 - 0.5; 0.5]).
Proof.
  cbv zeta. split.
  - apply (model_predict_threshold string Demo.load_img Demo.predict
             _ "g.png" "glaucoma" 0.92); reflexivity.
  - apply (model_predict_threshold string Demo.load_img Demo.predict
             _ "t.png" "tie" 0.5); [reflexivity | reflexivity |].
    vm_compute. discriminate.
Defined.

(** C2 as stated fails at the threshold: for [p = 0.5] the confidence is
    50, which is not above 50. *)
Lemma confidence_at_threshold_is_50 :
  let st : store := <["t.png" := File 0 "tie"]> ∅ in
  let confidence :=
    (model_predict string Demo.load_img Demo.predict st "t.png").1.2 in
  Demo.predict "tie" = Ok 0.5 ∧
  confidence == 50 ∧
  ¬ (50 < confidence ∧ confidence <= 100).
Proof.
  cbv zeta. split; [reflexivity |]. split; [reflexivity |].
  intros [Hlt _]. vm_compute in Hlt. discriminate.
Qed.

(** C2 as amended, at 0.92. *)
Lemma model_predict_confidence_witness :
  let st : store := <["g.png" := File 0 "glaucoma"]> (<["t.png" := File 0 "tie"]> ∅) in
  let confidence :=
    (model_predict string Demo.load_img Demo.predict st "g.png").1.2 in
  confidence == Qmax 0.92 (1 - 0.92) * 100 ∧
  50 <= confidence ∧ confidence <= 100 ∧
  (0.92 == 0.5 → confidence == 50).
Proof.
  cbv zeta.
  apply (model_predict_confidence string Demo.load_img Demo.predict
           _ "g.png" "glaucoma" 0.92); [reflexivity | reflexivity |].
  split; vm_compute; discriminate.
Defined.

(** C9 at work: the pair for the image classified with 0.92, for the
    bytes that do not decode and for the image on which the classifier
    raises. *)
Lemma model_predict_preds_witness :
  let st : store :=
    <["g.png" := File 0 "glaucoma"]>
    (<["bad.png" := File 0 "corrupt"]>
    (<["c.png" := File 0 "crash"]> ∅)) in
  (model_predict string Demo.load_img Demo.predict st "g.png").2
    = [1 - 0.92; 0.92] ∧
  (model_predict string Demo.load_img Demo.predict st "bad.png").2
    = [0.5; 0.5] ∧
  (model_predict string Demo.load_img Demo.predict st "c.png").2
    = [0.5; 0.5].
Proof.
  cbv zeta. split; [| split].
  - destruct (model_predict_preds string Demo.load_img Demo.predict
                (<["g.png" := File 0 "glaucoma"]>
                 (<["bad.png" := File 0 "corrupt"]>
                 (<["c.png" := File 0 "crash"]> ∅))) "g.png")
      as (Hok & _ & _ & _).
    apply (Hok "glaucoma" 0.92); reflexivity.
  - destruct (model_predict_preds string Demo.load_img Demo.predict
                (<["g.png" := File 0 "glaucoma"]>
                 (<["bad.png" := File 0 "corrupt"]>
                 (<["c.png" := File 0 "crash"]> ∅))) "bad.png")
      as (_ & Hread & _ & _).
    apply (Hread (OtherException "UnidentifiedImageError")). reflexivity.
  - destruct (model_predict_preds string Demo.load_img Demo.predict
                (<["g.png" := File 0 "glaucoma"]>
                 (<["bad.png" := File 0 "corrupt"]>
                 (<["c.png" := File 0 "crash"]> ∅))) "c.png")
      as (_ & _ & Hcls & _).
    apply (Hcls "crash" (OtherException "InvalidArgumentError")); reflexivity.
Defined.

(** C3 at work: the classifier raises on the upload "crash". *)
Lemma classifier_failure_fallback_witness :
  Demo.predict "crash" = Raise (OtherException "InvalidArgumentError") ∧
  (Demo.run_index (Demo.noon 0) 10000
     (POST (Some (mkUpload "eye.png" "crash"))) Demo.folder).1
    = ResultPage "Error" 0 "20240101_120000_eye.png".
Proof.
  split; [reflexivity |].
  destruct (classifier_failure_fallback string Demo.load_img Demo.predict
              Demo.remove_fails Demo.secure_filename Demo.render_chart
              (Demo.noon 0) 10000 (mkUpload "eye.png" "crash") Demo.folder
              "crash" (OtherException "InvalidArgumentError"))
    as [_ Hindex]; [discriminate | reflexivity | reflexivity |].
  unfold Demo.run_index. rewrite Hindex. reflexivity.
Defined.

(** C5 at work: at clock 10000 the file aged 3599 seconds is kept and the
    file aged 3601 seconds is removed, although the removal of another stale
    file of the folder fails. *)
Lemma cleanup_old_files_eviction_witness :
  cleanup_old_files Demo.remove_fails 10000 Demo.folder !! "fresh.png"
    = Some (File 6401 "a") ∧
  cleanup_old_files Demo.remove_fails 10000 Demo.folder !! "stale.png" = None ∧
  cleanup_old_files Demo.remove_fails 10000 Demo.folder !! "locked.png"
    = Some (File 6000 "c").
Proof.
  split; [| split].
  - destruct (cleanup_old_files_eviction Demo.remove_fails 10000 Demo.folder
                "fresh.png" 6401 "a") as (Hkept & _ & _); [reflexivity |].
    apply Hkept. vm_compute. discriminate.
  - destruct (cleanup_old_files_eviction Demo.remove_fails 10000 Demo.folder
                "stale.png" 6399 "b") as (_ & Hgone & _); [reflexivity |].
    apply Hgone; reflexivity.
  - destruct (cleanup_old_files_eviction Demo.remove_fails 10000 Demo.folder
                "locked.png" 6000 "c") as (_ & _ & Hstays); [reflexivity |].
    apply Hstays; reflexivity.
Defined.

(** C6 as stated fails: the upload "corrupt" does not decode, and the
    request answers with the result page for "Error" and keeps the upload,
    not with the try-again message. *)
Lemma decode_failure_gives_result_page :
  let r := Demo.run_index (Demo.noon 0) 10000
             (POST (Some (mkUpload "eye.png" "corrupt"))) ∅ in
  Demo.load_img "corrupt" = Raise (OtherException "UnidentifiedImageError") ∧
  r.1 = ResultPage "Error" 0 "20240101_120000_eye.png" ∧
  r.1 ≠ IndexPage (Some "Error processing image. Please try again.") ∧
  r.2 !! "20240101_120000_eye.png" = Some (File 10000 "corrupt").
Proof. vm_compute. repeat split. discriminate. Qed.

(** C6 as amended, on the same upload. *)
Lemma decode_failure_fallback_witness :
  let r := Demo.run_index (Demo.noon 0) 10000
             (POST (Some (mkUpload "eye.png" "corrupt"))) ∅ in
  r.1 = ResultPage "Error" 0 "20240101_120000_eye.png" ∧
  r.2 !! "20240101_120000_eye.png" = Some (File 10000 "corrupt").
Proof.
  cbv zeta.
  destruct (decode_failure_fallback string Demo.load_img Demo.predict
              Demo.remove_fails Demo.secure_filename Demo.render_chart
              (Demo.noon 0) 10000 (mkUpload "eye.png" "corrupt") ∅
              (OtherException "UnidentifiedImageError"))
    as [_ Hindex]; [discriminate | reflexivity |].
  unfold Demo.run_index. rewrite Hindex. split; reflexivity.
Defined.

(** C7 as stated fails: the image is classified (0.92, "Glaucoma"), the
    chart rendering raises, and the request answers with the error page and
    removes the upload; no diagnosis is returned. *)
Lemma chart_failure_loses_diagnosis :
  let st : store := <["20240101_120000_eye.png" := File 10000 "glaucoma"]> ∅ in
  let r := Demo.run_index_broken_chart (Demo.noon 0) 10000
             (POST (Some (mkUpload "eye.png" "glaucoma"))) ∅ in
  (model_predict string Demo.load_img Demo.predict st "20240101_120000_eye.png").1
    = ("Glaucoma", 0.92 * 100) ∧
  r.1 = IndexPage (Some "Error processing image. Please try again.") ∧
  (∀ confidence filename, r.1 ≠ ResultPage "Glaucoma" confidence filename) ∧
  r.2 !! "20240101_120000_eye.png" = None.
Proof. vm_compute. repeat split. discriminate. Qed.

(** C7 as amended, on the same upload. *)
Lemma chart_failure_error_page_witness :
  let r := Demo.run_index_broken_chart (Demo.noon 0) 10000
             (POST (Some (mkUpload "eye.png" "glaucoma"))) ∅ in
  r.1 = IndexPage (Some "Error processing image. Please try again.") ∧
  r.2 !! "20240101_120000_eye.png" = None.
Proof.
  cbv zeta.
  destruct (chart_failure_error_page string Demo.load_img Demo.predict
              Demo.remove_fails Demo.secure_filename Demo.render_chart_broken
              (Demo.noon 0) 10000 (mkUpload "eye.png" "glaucoma") ∅
              (OtherException "RuntimeError"))
    as [Hindex Hgone]; [discriminate | reflexivity |].
  unfold Demo.run_index_broken_chart. rewrite Hindex. split; [reflexivity |].
  exact Hgone.
Defined.

(** C10 at work: the fallback label "Error" and a missing field both give
    the healthy report. *)
Lemma report_healthy_branch_witness :
  story (Demo.noon 0) (Demo.noon 1) (Some "Error") (Some "0.0") !! 5%nat =
    Some (Table [ ["Prediction:"; "No Signs of Glaucoma"];
                  ["Confidence Level:"; "0.0%"];
                  ["Risk Assessment:"; "Low"] ]
                ["#27ae60"; "#229954"]) ∧
  story (Demo.noon 0) (Demo.noon 1) None None !! 9%nat =
    Some (Table ((λ text, [bullet; text]) <$> routine_recommendations) []).
Proof.
  split.
  - apply (report_healthy_branch (Demo.noon 0) (Demo.noon 1)
             (Some "Error") (Some "0.0")). discriminate.
  - apply (report_healthy_branch (Demo.noon 0) (Demo.noon 1) None None).
    discriminate.
Defined.

(** * Further properties of the code *)

(** ** More on the clean-up sweep *)

Section SweepFacts.

Variable remove_fails : string -> bool.

Local Abbreviation cleanup := (cleanup_old_files remove_fails).

(** What the sweep leaves under any name. *)
Lemma cleanup_lookup current_time (st : store) k :
  cleanup current_time st !! k =
    match st !! k with
    | Some (File mtime content) =>
        if Qlt_le_dec 3600 (current_time - mtime) then
          if remove_fails k then Some (File mtime content) else None
        else Some (File mtime content)
    | o => o
    end.
Proof.
  destruct (st !! k) as [[m c | m] |] eqn:Hk.
  - by apply cleanup_lookup_file.
  - rewrite cleanup_lookup_other; [done | intros m' c'; congruence].
  - rewrite cleanup_lookup_other; [done | intros m' c'; congruence].
Qed.

(** Whatever the loop leaves was there before, unchanged. *)
Lemma sweep_lookup_Some current_time names (st : store) k e :
  sweep remove_fails current_time names st !! k = Some e → st !! k = Some e.
Proof.
  rewrite sweep_lookup. destruct (st !! k) as [[m c | m] |]; [| done ..].
  destruct (decide (k ∈ names)); [| done].
  destruct (Qlt_le_dec 3600 (current_time - m)); [| done].
  destruct (remove_fails k); [done | discriminate].
Qed.

(** X1: the sweep only removes.  Every entry of the folder after the sweep
    was in the folder before it, with the same time and content. *)
Theorem cleanup_old_files_subseteq current_time (st : store) :
  cleanup_old_files remove_fails current_time st ⊆ st.
Proof.
  apply map_subseteq_spec. intros k e. apply sweep_lookup_Some.
Qed.

(** X2: a directory of the folder is never removed, however old it is. *)
Theorem cleanup_old_files_keeps_directories current_time (st : store) k mtime :
  st !! k = Some (Dir mtime) →
  cleanup_old_files remove_fails current_time st !! k = Some (Dir mtime).
Proof. intros Hk. by rewrite cleanup_lookup, Hk. Qed.

(** X3: the result of the loop does not depend on the order in which
    [os.listdir] gives the names. *)
Theorem sweep_listing_order current_time names1 names2 (st : store) :
  names1 ≡ₚ names2 →
  sweep remove_fails current_time names1 st
    = sweep remove_fails current_time names2 st.
Proof.
  intros Hperm. apply map_eq. intros k. rewrite !sweep_lookup.
  destruct (st !! k) as [[m c | m] |]; [| done ..].
  destruct (decide (k ∈ names1)) as [Hin1 | Hnin1],
           (decide (k ∈ names2)) as [Hin2 | Hnin2]; try done.
  - exfalso. apply Hnin2. by rewrite <- Hperm.
  - exfalso. apply Hnin1. by rewrite Hperm.
Qed.

(** X4: sweeping twice at the same time is the same as sweeping once. *)
Theorem cleanup_old_files_idempotent current_time (st : store) :
  cleanup_old_files remove_fails current_time
    (cleanup_old_files remove_fails current_time st)
  = cleanup_old_files remove_fails current_time st.
Proof.
  apply map_eq. intros k.
  rewrite (cleanup_lookup current_time (cleanup current_time st)).
  rewrite (cleanup_lookup current_time st).
  destruct (st !! k) as [[m c | m] |]; [| done ..].
  destruct (Qlt_le_dec 3600 (current_time - m)) as [Hold | Hyoung] eqn:Hage.
  - destruct (remove_fails k) eqn:Hrf; [| done]. cbn. by rewrite Hage.
  - cbn. by rewrite Hage.
Qed.

End SweepFacts.

(** ** Keys and identifiers *)

(** A number is given by its last digit and the rest. *)
Lemma div_mod_10_eq (n m : N) :
  (n / 10 = m / 10 → n mod 10 = m mod 10 → n = m)%N.
Proof.
  intros Hd Hm.
  rewrite (N.div_mod n 10), (N.div_mod m 10) by done. by rewrite Hd, Hm.
Qed.

(** The digit characters are distinct for distinct digits. *)
Lemma digit_char_inj (n m : N) :
  Ascii.ascii_of_N (48 + n mod 10) = Ascii.ascii_of_N (48 + m mod 10) →
  (n mod 10 = m mod 10)%N.
Proof.
  intros H. apply (f_equal Ascii.N_of_ascii) in H.
  pose proof (N.mod_lt n 10) as Hn. pose proof (N.mod_lt m 10) as Hm.
  rewrite !Ascii.N_ascii_embedding in H by lia. lia.
Qed.

(** A two-digit field in front of a string determines the number and the
    rest. *)
Lemma zpad2_append_inj (n m : N) (s t : string) :
  (n < 100)%N → (m < 100)%N →
  zpad2 n +:+ s = zpad2 m +:+ t → n = m ∧ s = t.
Proof.
  intros Hn Hm H. unfold zpad2, digit in H. cbn in H.
  injection H as H1 H0 Hst. split; [| done].
  apply digit_char_inj in H1, H0.
  apply div_mod_10_eq; [| done].
  rewrite <- (N.mod_small (n / 10) 10), <- (N.mod_small (m / 10) 10); [done | |];
    by apply N.Div0.div_lt_upper_bound.
Qed.

(** The same for the four-digit year. *)
Lemma zpad4_append_inj (n m : N) (s t : string) :
  (n < 10000)%N → (m < 10000)%N →
  zpad4 n +:+ s = zpad4 m +:+ t → n = m ∧ s = t.
Proof.
  intros Hn Hm H. unfold zpad4, digit in H. cbn in H.
  injection H as H3 H2 H1 H0 Hst. split; [| done].
  apply digit_char_inj in H3, H2, H1, H0.
  assert (H3' : (n / 1000 = m / 1000)%N).
  { rewrite <- (N.mod_small (n / 1000) 10), <- (N.mod_small (m / 1000) 10);
      [done | |]; by apply N.Div0.div_lt_upper_bound. }
  assert (H2' : (n / 100 = m / 100)%N).
  { apply div_mod_10_eq; [| done]. by rewrite !N.Div0.div_div. }
  assert (H1' : (n / 10 = m / 10)%N).
  { apply div_mod_10_eq; [| done]. by rewrite !N.Div0.div_div. }
  by apply div_mod_10_eq.
Qed.

(** A common prefix can be cancelled. *)
Lemma append_inv_head (p s t : string) : p +:+ s = p +:+ t → s = t.
Proof. induction p as [| c p IH]; [done |]. intros [= H]. by apply IH. Qed.

(** The timestamp token in front of a string determines the second and
    the rest. *)
Lemma strftime_token_append_inj d1 d2 (s t : string) :
  valid_datetime d1 → valid_datetime d2 →
  strftime_token d1 +:+ s = strftime_token d2 +:+ t →
  same_second d1 d2 ∧ s = t.
Proof.
  intros (Hy1 & Hmo1 & Hd1 & Hh1 & Hmi1 & Hs1 & _)
         (Hy2 & Hmo2 & Hd2 & Hh2 & Hmi2 & Hs2 & _) H.
  assert (Hshape : ∀ d u, strftime_token d +:+ u =
            zpad4 (year d) +:+ (zpad2 (month d) +:+ (zpad2 (day d) +:+
              ("_" +:+ (zpad2 (hour d) +:+ (zpad2 (minute d) +:+
                (zpad2 (second d) +:+ ("_" +:+ u)))))))) by reflexivity.
  rewrite !Hshape in H.
  apply zpad4_append_inj in H as [Hy H]; [| lia ..].
  apply zpad2_append_inj in H as [Hmo H]; [| lia ..].
  apply zpad2_append_inj in H as [Hd H]; [| lia ..].
  apply (append_inv_head "_") in H.
  apply zpad2_append_inj in H as [Hh H]; [| lia ..].
  apply zpad2_append_inj in H as [Hmi H]; [| lia ..].
  apply zpad2_append_inj in H as [Hs H]; [| lia ..].
  apply (append_inv_head "_") in H.
  by repeat split.
Qed.

(** A chart name starts with the letter p, a token with a digit. *)
Lemma plot_key_ne_token now now' (s : string) :
  plot_key now ≠ strftime_token now' +:+ s.
Proof.
  intros H. unfold plot_key, strftime_token, zpad4, digit in H. cbn in H.
  injection H as H _. apply (f_equal Ascii.N_of_ascii) in H.
  pose proof (N.mod_lt (year now' / 1000) 10) as Hlt.
  rewrite Ascii.N_ascii_embedding in H by lia. cbn in H. lia.
Qed.

(** The report identifier in front of a string determines the second and
    the rest. *)
Lemma strftime_id_append_inj d1 d2 (s t : string) :
  valid_datetime d1 → valid_datetime d2 →
  strftime_id d1 +:+ s = strftime_id d2 +:+ t →
  same_second d1 d2 ∧ s = t.
Proof.
  intros (Hy1 & Hmo1 & Hd1 & Hh1 & Hmi1 & Hs1 & _)
         (Hy2 & Hmo2 & Hd2 & Hh2 & Hmi2 & Hs2 & _) H.
  assert (Hshape : ∀ d u, strftime_id d +:+ u =
            zpad4 (year d) +:+ (zpad2 (month d) +:+ (zpad2 (day d) +:+
              (zpad2 (hour d) +:+ (zpad2 (minute d) +:+
                (zpad2 (second d) +:+ u)))))) by reflexivity.
  rewrite !Hshape in H.
  apply zpad4_append_inj in H as [Hy H]; [| lia ..].
  apply zpad2_append_inj in H as [Hmo H]; [| lia ..].
  apply zpad2_append_inj in H as [Hd H]; [| lia ..].
  apply zpad2_append_inj in H as [Hh H]; [| lia ..].
  apply zpad2_append_inj in H as [Hmi H]; [| lia ..].
  apply zpad2_append_inj in H as [Hs H]; [| lia ..].
  by repeat split.
Qed.

Lemma strftime_id_same_second d1 d2 :
  same_second d1 d2 → strftime_id d1 = strftime_id d2.
Proof. unfold strftime_id. by intros (-> & -> & -> & -> & -> & ->). Qed.

(** X5: for readings of the clock, two uploads are stored under the same
    name exactly when they arrive in the same second and their sanitized
    file names are equal; uploads of different seconds never share a
    name. *)
Theorem upload_key_collision_iff secure_filename d1 d2 f1 f2 :
  valid_datetime d1 → valid_datetime d2 →
  upload_key secure_filename d1 f1 = upload_key secure_filename d2 f2
  ↔ same_second d1 d2 ∧
    secure_filename (up_filename f1) = secure_filename (up_filename f2).
Proof.
  intros Hv1 Hv2. unfold upload_key. split.
  - by apply strftime_token_append_inj.
  - intros [(Hy & Hmo & Hd & Hh & Hmi & Hs) ->].
    by rewrite (strftime_token_same_second d1 d2).
Qed.

(** X6: for readings of the clock, two charts are stored under the same
    name exactly when their requests arrive in the same second, whatever
    the uploads are called. *)
Theorem plot_key_collision_iff d1 d2 :
  valid_datetime d1 → valid_datetime d2 →
  plot_key d1 = plot_key d2 ↔ same_second d1 d2.
Proof.
  intros Hv1 Hv2. unfold plot_key. split.
  - intros H. apply (append_inv_head "plot_") in H.
    by apply strftime_token_append_inj in H as [Hsame _].
  - intros (Hy & Hmo & Hd & Hh & Hmi & Hs).
    by rewrite (strftime_token_same_second d1 d2).
Qed.

(** X7: a chart is never stored under the name of an upload, of the same
    request or of any other. *)
Theorem plot_key_never_upload_key secure_filename now now' file :
  plot_key now ≠ upload_key secure_filename now' file.
Proof. apply plot_key_ne_token. Qed.

(** X8: for readings of the clock, the closing line of two reports, which
    carries the report identifier, is the same exactly when the reports are
    generated in the same second. *)
Theorem report_id_collision_iff d1 d2 :
  valid_datetime d1 → valid_datetime d2 →
  report_info (strftime_id d1) = report_info (strftime_id d2)
  ↔ same_second d1 d2.
Proof.
  intros Hv1 Hv2. unfold report_info. split.
  - intros H. apply append_inv_head in H.
    by apply strftime_id_append_inj in H as [Hsame _].
  - intros Hsame. by rewrite (strftime_id_same_second d1 d2).
Qed.

(** ** Rounding *)

(** Rounding stays between the integers that enclose the argument. *)
Lemma round_half_even_bounds (x : Q) (a b : Z) :
  inject_Z a <= x → x <= inject_Z b →
  (a <= round_half_even x <= b)%Z.
Proof.
  intros Ha Hb. unfold round_half_even.
  pose proof (Qfloor_le x) as Hfl. pose proof (Qlt_floor x) as Hfu.
  rewrite inject_Z_plus in Hfu.
  assert (Haf : (a <= Qfloor x)%Z).
  { apply Z.lt_succ_r. rewrite Zlt_Qlt. unfold Z.succ.
    rewrite inject_Z_plus. lra. }
  assert (Hfb : (Qfloor x <= b)%Z) by (rewrite Zle_Qle; lra).
  assert (Hup : 0 < x - inject_Z (Qfloor x) → (Qfloor x + 1 <= b)%Z).
  { intros Hpos. apply Z.le_succ_l. rewrite Zlt_Qlt. lra. }
  destruct (Qcompare_spec (x - inject_Z (Qfloor x)) (1 # 2)) as [He | Hl | Hg].
  - destruct (Z.even (Qfloor x)); [lia |].
    split; [lia |]. apply Hup. lra.
  - lia.
  - split; [lia |]. apply Hup. lra.
Qed.

(** Rounding to two digits stays between the integers that enclose the
    argument. *)
Lemma py_round_2_bounds (x : Q) (a b : Z) :
  inject_Z a <= x → x <= inject_Z b →
  inject_Z a <= py_round x 2 ∧ py_round x 2 <= inject_Z b.
Proof.
  intros Ha Hb. unfold py_round. rewrite Qred_correct.
  change (inject_Z (10 ^ Z.of_nat 2)) with (inject_Z 100).
  destruct (round_half_even_bounds (x * inject_Z 100) (a * 100) (b * 100))
    as [Hlo Hhi].
  - rewrite inject_Z_mult. change (inject_Z 100) with 100. lra.
  - rewrite inject_Z_mult. change (inject_Z 100) with 100. lra.
  - rewrite Zle_Qle, inject_Z_mult in Hlo, Hhi.
    change (inject_Z 100) with 100 in *.
    split.
    + apply Qle_shift_div_l; [reflexivity | lra].
    + apply Qle_shift_div_r; [reflexivity | lra].
Qed.

(** ** The routes together *)

(** A file just saved is served with the bytes saved. *)
Lemma uploaded_file_saved filename clock data (st : store) :
  uploaded_file filename (save filename clock data st) = Ok data.
Proof. unfold uploaded_file, save. by rewrite lookup_insert_eq. Qed.

Section RouteFacts.

Variable tensor : Type.
Variable load_img : string -> outcome tensor.
Variable predict : tensor -> outcome Q.
Variable remove_fails : string -> bool.
Variable secure_filename : string -> string.
Variable render_chart : list string -> list Q -> outcome string.

Local Abbreviation run_predict := (model_predict tensor load_img predict).
Local Abbreviation try_predict := (model_predict_try tensor load_img predict).
Local Abbreviation read := (read_image tensor load_img).
Local Abbreviation cleanup := (cleanup_old_files remove_fails).
Local Abbreviation key := (upload_key secure_filename).
Local Abbreviation discard := (discard_upload remove_fails).
Local Abbreviation run_index :=
  (index tensor load_img predict remove_fails secure_filename render_chart).
Local Abbreviation run_index_try :=
  (index_try tensor load_img predict render_chart).

(** The [try] block of the route answers only with a result page, for the
    name it was given, and stores the chart on top of the folder. *)
Lemma index_try_Ok now clock filename (st : store) resp st' :
  run_index_try now clock filename st = Ok (resp, st') →
  ∃ pred_class confidence png,
    resp = ResultPage pred_class confidence filename ∧
    st' = save (plot_key now) clock png st.
Proof.
  unfold index_try.
  destruct (run_predict st filename) as [[pred_class confidence] preds].
  destruct (render_chart class_labels ((λ v, v * 100) <$> preds)) as [png | e];
    cbn; [| discriminate].
  intros [= <- <-]. by exists pred_class, (py_round confidence 2), png.
Qed.

(** The store after a request with a named file. *)
Lemma index_post_store now clock file (st : store) :
  up_filename file ≠ EmptyString →
  let st2 := save (key now file) clock (up_data file) (cleanup clock st) in
  (∃ png, (run_index now clock (POST (Some file)) st).2
            = save (plot_key now) clock png st2)
  ∨ (run_index now clock (POST (Some file)) st).2 = discard (key now file) st2.
Proof.
  intros Hname st2.
  rewrite (index_post _ _ _ _ _ _ _ _ _ _ Hname). cbv zeta. fold st2.
  destruct (run_index_try now clock (key now file) st2) as [[resp st'] | e] eqn:Htry.
  - apply index_try_Ok in Htry as (pc & conf & png & _ & ->). left. by exists png.
  - by right.
Qed.

(** X10: whenever the upload route answers with a result page, the request
    was an upload, the file name on the page is the name the upload was
    stored under, the route that serves the folder returns the uploaded
    bytes for that name, and it returns the chart for the chart name. *)
Theorem result_page_is_served now clock req (st : store) pred_class confidence filename st' :
  run_index now clock req st = (ResultPage pred_class confidence filename, st') →
  ∃ file png,
    req = POST (Some file) ∧
    filename = key now file ∧
    uploaded_file filename st' = Ok (up_data file) ∧
    uploaded_file (plot_key now) st' = Ok png.
Proof.
  destruct req as [| [file |]]; [discriminate | | discriminate].
  destruct (decide (up_filename file = EmptyString)) as [Hempty | Hname].
  { unfold index. rewrite Hempty. discriminate. }
  rewrite (index_post _ _ _ _ _ _ _ _ _ _ Hname). cbv zeta.
  destruct (run_index_try now clock (key now file) _) as [[resp st''] | e] eqn:Htry;
    [| discriminate].
  intros [= -> ->].
  apply index_try_Ok in Htry as (pc & conf & png & [= -> -> ->] & ->).
  exists file, png. repeat split.
  - unfold uploaded_file, save.
    rewrite lookup_insert_ne by apply plot_key_ne_token.
    by rewrite lookup_insert_eq.
  - apply uploaded_file_saved.
Qed.

(** X11: a request never removes or changes a file of the folder that is
    at most 3600 seconds old, unless the request stores its own upload or
    chart under the name of that file. *)
Theorem index_keeps_fresh_files now clock req (st : store) k mtime content :
  st !! k = Some (File mtime content) →
  clock - mtime <= 3600 →
  (∀ file, req = POST (Some file) → k ≠ key now file) →
  k ≠ plot_key now →
  (run_index now clock req st).2 !! k = Some (File mtime content).
Proof.
  intros Hk Hage Hkey Hplot.
  destruct req as [| [file |]]; [done | | done].
  destruct (decide (up_filename file = EmptyString)) as [Hempty | Hname].
  { unfold index. by rewrite Hempty. }
  specialize (Hkey file eq_refl).
  assert (Hswept : cleanup clock st !! k = Some (File mtime content)).
  { rewrite (cleanup_lookup_file _ _ _ _ _ _ Hk).
    destruct (Qlt_le_dec 3600 (clock - mtime)); [exfalso; lra | done]. }
  destruct (index_post_store now clock file st Hname) as [[png ->] | ->].
  - unfold save. by rewrite !lookup_insert_ne.
  - unfold discard_upload, os_remove, save.
    destruct (remove_fails (key now file)).
    + by rewrite lookup_insert_ne.
    + rewrite lookup_insert_eq, lookup_delete_ne, lookup_insert_ne; done.
Qed.

(** X12: when the chart rendering raises, the removal of the upload does
    not fail and the upload name was free, the folder after the request is
    the folder as the sweep left it: nothing of the request remains. *)
Theorem failed_request_leaves_no_trace now clock file (st : store) e :
  up_filename file ≠ EmptyString →
  let filename := key now file in
  let st1 := cleanup clock st in
  let st2 := save filename clock (up_data file) st1 in
  render_chart class_labels ((λ v, v * 100) <$> (run_predict st2 filename).2)
    = Raise e →
  remove_fails filename = false →
  st1 !! filename = None →
  (run_index now clock (POST (Some file)) st).2 = st1.
Proof.
  intros Hname filename st1 st2 Hchart Hrm Hfree.
  rewrite (index_post _ _ _ _ _ _ _ _ _ _ Hname). cbv zeta.
  fold filename. fold st1. fold st2.
  unfold index_try.
  destruct (run_predict st2 filename) as [[pred_class confidence] preds].
  cbn [snd] in Hchart. rewrite Hchart. cbn.
  unfold discard_upload, os_remove. rewrite Hrm.
  unfold st2, save. rewrite lookup_insert_eq. by apply delete_insert_id.
Qed.

(** X9: an upload that decodes, is classified with [p] in [[0, 1]] and
    whose chart renders is answered with the result page for the stored
    name; the label is "Glaucoma" for [p] above 0.5 and "Normal" otherwise,
    the rounded confidence on the page lies between 50 and 100, and the
    upload and the chart are in the folder afterwards. *)
Theorem index_success now clock file (st : store) img p png :
  up_filename file ≠ EmptyString →
  load_img (up_data file) = Ok img →
  predict img = Ok p →
  0 <= p <= 1 →
  render_chart class_labels [(1 - p) * 100; p * 100] = Ok png →
  ∃ pred_class confidence st',
    run_index now clock (POST (Some file)) st
      = (ResultPage pred_class confidence (key now file), st') ∧
    (pred_class = "Glaucoma" ∧ 0.5 < p ∨ pred_class = "Normal" ∧ p <= 0.5) ∧
    50 <= confidence ∧ confidence <= 100 ∧
    st' !! key now file = Some (File clock (up_data file)) ∧
    st' !! plot_key now = Some (File clock png).
Proof.
  intros Hname Hload Hpred [Hp0 Hp1] Hchart.
  rewrite (index_post _ _ _ _ _ _ _ _ _ _ Hname). cbv zeta.
  unfold index_try, model_predict.
  rewrite (model_predict_try_ok _ _ _ _ _ img p); [| by rewrite read_saved | done].
  cbn [fmap list_fmap]. rewrite Hchart. cbn.
  eexists _, _, _. split; [reflexivity |].
  destruct (Qlt_le_dec 0.5 p) as [Hgt | Hle].
  - split; [by left |].
    destruct (py_round_2_bounds (p * 100) 50 100) as [Hlo Hhi];
      [change (inject_Z 50) with 50; lra | change (inject_Z 100) with 100; lra |].
    split; [exact Hlo |]. split; [exact Hhi |]. unfold save. split.
    + rewrite lookup_insert_ne by apply plot_key_ne_token.
      by rewrite lookup_insert_eq.
    + by rewrite lookup_insert_eq.
  - split; [by right |].
    destruct (py_round_2_bounds ((1 - p) * 100) 50 100) as [Hlo Hhi];
      [change (inject_Z 50) with 50; lra | change (inject_Z 100) with 100; lra |].
    split; [exact Hlo |]. split; [exact Hhi |]. unfold save. split.
    + rewrite lookup_insert_ne by apply plot_key_ne_token.
      by rewrite lookup_insert_eq.
    + by rewrite lookup_insert_eq.
Qed.

(** X13: after an upload request, a file that was older than 3600 seconds
    and whose removal does not fail can no longer be served, unless the
    request stored its own upload or chart under that name. *)
Theorem stale_file_not_served_after_upload now clock file (st : store) k mtime content :
  up_filename file ≠ EmptyString →
  st !! k = Some (File mtime content) →
  3600 < clock - mtime →
  remove_fails k = false →
  k ≠ key now file →
  k ≠ plot_key now →
  uploaded_file k (run_index now clock (POST (Some file)) st).2
    = Raise (OSError "FileNotFoundError").
Proof.
  intros Hname Hk Hage Hrm Hkey Hplot.
  assert (Hswept : cleanup clock st !! k = None).
  { rewrite (cleanup_lookup_file _ _ _ _ _ _ Hk), Hrm.
    destruct (Qlt_le_dec 3600 (clock - mtime)); [done | exfalso; lra]. }
  unfold uploaded_file.
  destruct (index_post_store now clock file st Hname) as [[png ->] | ->].
  - unfold save. by rewrite !lookup_insert_ne, Hswept.
  - unfold discard_upload, os_remove, save.
    destruct (remove_fails (key now file)).
    + by rewrite lookup_insert_ne, Hswept.
    + rewrite lookup_insert_eq, lookup_delete_ne, lookup_insert_ne, Hswept; done.
Qed.

End RouteFacts.

(** ** More on the prediction function and the report *)

Section LabelFacts.

Variable tensor : Type.
Variable load_img : string -> outcome tensor.
Variable predict : tensor -> outcome Q.

(** X15: the label returned by the prediction function is "Glaucoma",
    "Normal" or "Error", and it is "Error" exactly when the reading of the
    image raised, or the image was read and the classifier raised on it. *)
Theorem model_predict_label (st : store) img_path :
  let label := (model_predict tensor load_img predict st img_path).1.1 in
  (label = "Glaucoma" ∨ label = "Normal" ∨ label = "Error") ∧
  (label = "Error"
     ↔ (∃ e, read_image tensor load_img st img_path = Raise e)
       ∨ (∃ img e, read_image tensor load_img st img_path = Ok img ∧
                   predict img = Raise e)).
Proof.
  cbv zeta. unfold model_predict.
  destruct (read_image tensor load_img st img_path) as [img | e] eqn:Hread.
  - destruct (predict img) as [p | e] eqn:Hpred.
    + rewrite (model_predict_try_ok _ _ _ _ _ _ _ Hread Hpred). cbn [fst].
      assert (Hno : ¬ ((∃ e, Ok img = Raise e)
                       ∨ (∃ img' e, Ok img = Ok img' ∧ predict img' = Raise e))).
      { intros [[e He] | (img' & e & [= <-] & He)]; congruence. }
      destruct (Qlt_le_dec 0.5 p); (split; [auto |]);
        (split; [discriminate | intros H; destruct (Hno H)]).
    + rewrite (model_predict_try_predict_raises _ _ _ _ _ _ _ Hread Hpred).
      cbn [fst]. split; [auto |]. split; [| done].
      intros _. right. by exists img, e.
  - rewrite (model_predict_try_read_raises _ _ _ _ _ _ Hread).
    cbn [fst]. split; [auto |]. split; [| done].
    intros _. left. by exists e.
Qed.

End LabelFacts.

(** X14: the report depends on the prediction field only through whether
    it is "Glaucoma"; any two other values, a missing field included, give
    the same document and the same response. *)
Theorem report_ignores_other_labels build now now_id prediction1 prediction2 confidence :
  prediction1 ≠ Some "Glaucoma" →
  prediction2 ≠ Some "Glaucoma" →
  story now now_id prediction1 confidence = story now now_id prediction2 confidence ∧
  download_report build now now_id prediction1 confidence
    = download_report build now now_id prediction2 confidence.
Proof.
  intros H1 H2. apply is_glaucoma_false in H1, H2.
  assert (Hstory : story now now_id prediction1 confidence
                     = story now now_id prediction2 confidence).
  { unfold story, results_data, rec_data, status, risk_assessment,
      result_color, confidence_color, notice, recommendations.
    by rewrite H1, H2. }
  split; [exact Hstory |]. unfold download_report. by rewrite Hstory.
Qed.

(** ** The further properties at concrete inputs *)

(** Noon of 1 January 2024 is a reading of the clock, and so is the
    second after it. *)
Lemma noon_valid : valid_datetime (Demo.noon 100000).
Proof. unfold valid_datetime. cbn. lia. Qed.

Lemma after_noon_valid : valid_datetime (mkDatetime 2024 1 1 12 0 1 0).
Proof. unfold valid_datetime. cbn. lia. Qed.

(** X2 at work: the directory of the demo folder, 10000 seconds old. *)
Lemma cleanup_old_files_keeps_directories_witness :
  cleanup_old_files Demo.remove_fails 10000 Demo.folder !! "old_dir"
    = Some (Dir 0).
Proof.
  apply (cleanup_old_files_keeps_directories Demo.remove_fails 10000
           Demo.folder "old_dir" 0).
  reflexivity.
Defined.

(** X3 at work: the two stale files of the demo folder, listed in both
    orders. *)
Lemma sweep_listing_order_witness :
  sweep Demo.remove_fails 10000 ["stale.png"; "locked.png"] Demo.folder
    = sweep Demo.remove_fails 10000 ["locked.png"; "stale.png"] Demo.folder.
Proof.
  apply (sweep_listing_order Demo.remove_fails 10000
           ["stale.png"; "locked.png"] ["locked.png"; "stale.png"] Demo.folder).
  apply perm_swap.
Defined.

(** X5 at work: the same name uploaded at noon and one second later. *)
Lemma upload_key_collision_iff_witness :
  upload_key Demo.secure_filename (Demo.noon 100000) (mkUpload "eye.png" "first")
    = upload_key Demo.secure_filename (mkDatetime 2024 1 1 12 0 1 0)
        (mkUpload "eye.png" "second")
  ↔ same_second (Demo.noon 100000) (mkDatetime 2024 1 1 12 0 1 0) ∧
    Demo.secure_filename "eye.png" = Demo.secure_filename "eye.png".
Proof.
  apply (upload_key_collision_iff Demo.secure_filename (Demo.noon 100000)
           (mkDatetime 2024 1 1 12 0 1 0)
           (mkUpload "eye.png" "first") (mkUpload "eye.png" "second")).
  - exact noon_valid.
  - exact after_noon_valid.
Defined.

(** X6 at work: the charts of noon and of one second later. *)
Lemma plot_key_collision_iff_witness :
  plot_key (Demo.noon 100000) = plot_key (mkDatetime 2024 1 1 12 0 1 0)
  ↔ same_second (Demo.noon 100000) (mkDatetime 2024 1 1 12 0 1 0).
Proof.
  apply (plot_key_collision_iff (Demo.noon 100000) (mkDatetime 2024 1 1 12 0 1 0)).
  - exact noon_valid.
  - exact after_noon_valid.
Defined.

(** X8 at work: the reports of noon and of one second later. *)
Lemma report_id_collision_iff_witness :
  report_info (strftime_id (Demo.noon 100000))
    = report_info (strftime_id (mkDatetime 2024 1 1 12 0 1 0))
  ↔ same_second (Demo.noon 100000) (mkDatetime 2024 1 1 12 0 1 0).
Proof.
  apply (report_id_collision_iff (Demo.noon 100000) (mkDatetime 2024 1 1 12 0 1 0)).
  - exact noon_valid.
  - exact after_noon_valid.
Defined.

(** X9 at work: the upload classified with 0.92. *)
Lemma index_success_witness :
  ∃ pred_class confidence st',
    Demo.run_index (Demo.noon 0) 10000
      (POST (Some (mkUpload "eye.png" "glaucoma"))) Demo.folder
      = (ResultPage pred_class confidence
           (upload_key Demo.secure_filename (Demo.noon 0)
              (mkUpload "eye.png" "glaucoma")), st') ∧
    (pred_class = "Glaucoma" ∧ 0.5 < 0.92 ∨ pred_class = "Normal" ∧ 0.92 <= 0.5) ∧
    50 <= confidence ∧ confidence <= 100 ∧
    st' !! upload_key Demo.secure_filename (Demo.noon 0)
             (mkUpload "eye.png" "glaucoma") = Some (File 10000 "glaucoma") ∧
    st' !! plot_key (Demo.noon 0) = Some (File 10000 "PNG").
Proof.
  apply (index_success string Demo.load_img Demo.predict Demo.remove_fails
           Demo.secure_filename Demo.render_chart (Demo.noon 0) 10000
           (mkUpload "eye.png" "glaucoma") Demo.folder "glaucoma" 0.92 "PNG").
  - discriminate.
  - reflexivity.
  - reflexivity.
  - split; vm_compute; discriminate.
  - reflexivity.
Defined.

(** X10 at work: the result page of that upload. *)
Lemma result_page_is_served_witness :
  let st' := (Demo.run_index (Demo.noon 0) 10000
                (POST (Some (mkUpload "eye.png" "glaucoma"))) Demo.folder).2 in
  ∃ file png,
    POST (Some (mkUpload "eye.png" "glaucoma")) = POST (Some file) ∧
    "20240101_120000_eye.png" = upload_key Demo.secure_filename (Demo.noon 0) file ∧
    uploaded_file "20240101_120000_eye.png" st' = Ok (up_data file) ∧
    uploaded_file (plot_key (Demo.noon 0)) st' = Ok png.
Proof.
  cbv zeta.
  apply (result_page_is_served string Demo.load_img Demo.predict Demo.remove_fails
           Demo.secure_filename Demo.render_chart (Demo.noon 0) 10000
           (POST (Some (mkUpload "eye.png" "glaucoma"))) Demo.folder
           "Glaucoma" 92 "20240101_120000_eye.png").
  vm_compute. reflexivity.
Defined.

(** X11 at work: the fresh file of the demo folder during that upload. *)
Lemma index_keeps_fresh_files_witness :
  (Demo.run_index (Demo.noon 0) 10000
     (POST (Some (mkUpload "eye.png" "glaucoma"))) Demo.folder).2 !! "fresh.png"
    = Some (File 6401 "a").
Proof.
  apply (index_keeps_fresh_files string Demo.load_img Demo.predict
           Demo.remove_fails Demo.secure_filename Demo.render_chart
           (Demo.noon 0) 10000 (POST (Some (mkUpload "eye.png" "glaucoma")))
           Demo.folder "fresh.png" 6401 "a").
  - reflexivity.
  - vm_compute. discriminate.
  - intros file [= <-]. vm_compute. discriminate.
  - vm_compute. discriminate.
Defined.

(** X12 at work: the same upload with the renderer that raises. *)
Lemma failed_request_leaves_no_trace_witness :
  (Demo.run_index_broken_chart (Demo.noon 0) 10000
     (POST (Some (mkUpload "eye.png" "glaucoma"))) Demo.folder).2
    = cleanup_old_files Demo.remove_fails 10000 Demo.folder.
Proof.
  apply (failed_request_leaves_no_trace string Demo.load_img Demo.predict
           Demo.remove_fails Demo.secure_filename Demo.render_chart_broken
           (Demo.noon 0) 10000 (mkUpload "eye.png" "glaucoma") Demo.folder
           (OtherException "RuntimeError")).
  - discriminate.
  - reflexivity.
  - reflexivity.
  - vm_compute. reflexivity.
Defined.

(** X13 at work: the stale file of the demo folder after that upload. *)
Lemma stale_file_not_served_after_upload_witness :
  uploaded_file "stale.png"
    (Demo.run_index (Demo.noon 0) 10000
       (POST (Some (mkUpload "eye.png" "glaucoma"))) Demo.folder).2
    = Raise (OSError "FileNotFoundError").
Proof.
  apply (stale_file_not_served_after_upload string Demo.load_img Demo.predict
           Demo.remove_fails Demo.secure_filename Demo.render_chart
           (Demo.noon 0) 10000 (mkUpload "eye.png" "glaucoma") Demo.folder
           "stale.png" 6399 "b").
  - discriminate.
  - reflexivity.
  - reflexivity.
  - reflexivity.
  - vm_compute. discriminate.
  - vm_compute. discriminate.
Defined.

(** X14 at work: the labels "Normal" and "Error". *)
Lemma report_ignores_other_labels_witness :
  story (Demo.noon 0) (Demo.noon 1) (Some "Normal") (Some "90.0")
    = story (Demo.noon 0) (Demo.noon 1) (Some "Error") (Some "90.0") ∧
  download_report Demo.build (Demo.noon 0) (Demo.noon 1) (Some "Normal") (Some "90.0")
    = download_report Demo.build (Demo.noon 0) (Demo.noon 1) (Some "Error") (Some "90.0").
Proof.
  apply (report_ignores_other_labels Demo.build (Demo.noon 0) (Demo.noon 1)
           (Some "Normal") (Some "Error") (Some "90.0")); discriminate.
Defined.
